(** * Event-management API (server/app.py): a shallow embedding

    The Flask handlers of [server/app.py] are modelled as functions
    [db -> json -> response * db]: [db] holds the rows of the four
    SQLAlchemy tables (in rowid order, i.e. insertion order), [json] is
    the dictionary returned by [request.get_json()], and the response is
    the JSON body together with its HTTP status.

    Between a handler and the SQLite file sit three layers, each
    modelled: SQLAlchemy's bind processing of a column's type ([float()]
    for a [Float] column, the date string of a [DateTime] column, the
    column default for an attribute left [None]), the [sqlite3] module's
    binding of a Python value (a [bool] is an integer, an [int] must fit
    in 64 bits, NaN becomes NULL, a [list] or [dict] is refused), and
    SQLite's column affinity (TEXT columns turn numbers into text,
    INTEGER columns turn numeric text and integral reals into integers).
    A handler whose flush or commit raises (an unbindable parameter,
    a NULL in a NOT NULL column, a duplicate in a UNIQUE column) leaves
    the rows unchanged (the session is rolled back) and answers with an
    uncaught server error.

    Library functions whose exact behaviour is not written out here are
    parameters: Python's [float] of a string, SQLite's rendering of a
    REAL as text and its reading of numeric text ([Runtime]), and
    [datetime.fromisoformat] and [datetime.isoformat] (section [Dates]). *)

From Stdlib Require Import QArith ZArith Ascii.
From stdpp Require Import gmap strings list fin_maps.

Open Scope string_scope.
Open Scope list_scope.
#[local] Set Warnings "-register-all".

(* ------------------------------------------------------------------ *)
(** ** Values *)

(** A Python [float]: a finite value (the rational it denotes), an
    infinity, or NaN ([json.loads] accepts [Infinity] and [NaN]). *)
Inductive pyfloat :=
| Fin (q : Q)
| Inf (neg : bool)
| NaN.

(** Python scalars ([None], [bool], [int], [float], [str]; strings are
    Unicode text, held as their UTF-8 bytes).  The same type holds what
    SQLite stores and returns: NULL, INTEGER, REAL and TEXT (a [bool]
    is never stored, it is bound as an integer). *)
Inductive sval :=
| SNull
| SBool (b : bool)
| SInt (z : Z)
| SFloat (f : pyfloat)
| SStr (s : string).

(** JSON values as produced by [request.get_json()]. *)
Inductive jval :=
| JScalar (v : sval)
| JArr (l : list jval)
| JObj (l : list (string * jval)).

Abbreviation JNull := (JScalar SNull).
Abbreviation JStr s := (JScalar (SStr s)).
Abbreviation JInt z := (JScalar (SInt z)).
Abbreviation JFloat q := (JScalar (SFloat (Fin q))).

(** The request body: a JSON object, i.e. a Python [dict]. *)
Abbreviation json := (gmap string jval).

(** [data.get(k)] *)
Definition get (data : json) (k : string) : jval := default JNull (data !! k).

(** [data.get(k, d)] *)
Definition get_default (data : json) (k : string) (d : jval) : jval :=
  default d (data !! k).

(** Python truthiness: [None], [False], [0], [0.0], [""], [[]], [{}]
    are falsy; infinities and NaN are truthy. *)
Definition truthy (v : jval) : bool :=
  match v with
  | JScalar SNull => false
  | JScalar (SBool b) => b
  | JScalar (SInt z) => negb (Z.eqb z 0)
  | JScalar (SFloat (Fin q)) => negb (Qeq_bool q 0)
  | JScalar (SFloat _) => true
  | JScalar (SStr s) => negb (String.eqb s "")
  | JArr l => match l with [] => false | _ => true end
  | JObj l => match l with [] => false | _ => true end
  end.

(** Only scalars can reach the database: sqlite3 refuses a [list] or
    [dict] parameter (and [float()] refuses them too). *)
Definition bind_param (v : jval) : option sval :=
  match v with
  | JScalar s => Some s
  | _ => None
  end.

(** A NOT NULL column rejects NULL. *)
Definition not_null (v : sval) : bool :=
  match v with SNull => false | _ => true end.

(** The signed 64-bit range of SQLite's INTEGER. *)
Definition int64_min : Z := - 2 ^ 63.
Definition int64_max : Z := 2 ^ 63 - 1.
Definition in_int64 (z : Z) : bool := (int64_min <=? z)%Z && (z <=? int64_max)%Z.

Definition digit (c : Ascii.ascii) : option Z :=
  let n := Ascii.nat_of_ascii c in
  if (48 <=? n)%nat && (n <=? 57)%nat then Some (Z.of_nat (n - 48)) else None.

Fixpoint digits_rev (fuel : nat) (n : Z) (acc : string) : string :=
  match fuel with
  | O => acc
  | S k =>
      let acc' := String (Ascii.ascii_of_nat (48 + Z.to_nat (n mod 10))) acc in
      if (n <? 10)%Z then acc' else digits_rev k (n / 10) acc'
  end.

(** The decimal text of an integer, as Python's [str] and SQLite's
    [%lld] write it. *)
Definition ztext (z : Z) : string :=
  let s := digits_rev (S (Z.to_nat (Z.log2 (Z.abs z)))) (Z.abs z) "" in
  if (z <? 0)%Z then String "-" s else s.

(** Python's [float(n)] for an [int]: rounded to 53 significant bits,
    ties to even; [None] is the [OverflowError] for a result of 2^1024
    or more. *)
Definition float_of_int (z : Z) : option pyfloat :=
  let a := Z.abs z in
  let n := (Z.log2 a + 1)%Z in
  let r := if (n <=? 53)%Z then a
           else let s := (n - 53)%Z in
                let q := Z.shiftr a s in
                let rem := (a - Z.shiftl q s)%Z in
                let half := Z.shiftl 1 (s - 1) in
                let q' := if (half <? rem)%Z || ((rem =? half)%Z && Z.odd q)
                          then (q + 1)%Z else q in
                Z.shiftl q' s in
  if (2 ^ 1024 <=? r)%Z then None else Some (Fin (inject_Z (Z.sgn z * r))).

(** Library behaviour the model takes as a parameter. *)
Class Runtime := {
  (** Python's [float(s)] on a [str]; [None] is its [ValueError]. *)
  float_of_str : string -> option pyfloat;
  (** SQLite's text for a REAL ([%!.15g]), used by TEXT affinity. *)
  real_text : pyfloat -> string;
  (** SQLite's reading of a TEXT as a numeric literal, used by
      INTEGER affinity: [inl] an integer literal that fits in 64 bits,
      [inr] the value of any other numeric literal, [None] for text that
      is not one. *)
  text_numeric : string -> option (Z + pyfloat)
}.

(** SQL [a = b] between two stored values, with no affinity left to
    apply (how the UNIQUE index compares): NULL equals nothing, INTEGER
    and REAL compare by value, TEXT byte by byte (BINARY collation). *)
Definition real_eqb (x y : pyfloat) : bool :=
  match x, y with
  | Fin p, Fin q => Qeq_bool p q
  | Inf a, Inf b => Bool.eqb a b
  | _, _ => false
  end.

Definition sql_same (a b : sval) : bool :=
  match a, b with
  | SInt x, SInt y => Z.eqb x y
  | SInt x, SFloat y => real_eqb (Fin (inject_Z x)) y
  | SFloat x, SInt y => real_eqb x (Fin (inject_Z y))
  | SFloat x, SFloat y => real_eqb x y
  | SStr x, SStr y => String.eqb x y
  | _, _ => false
  end.

(** sqlite3's binding of a parameter: [bool] as an integer, an [int]
    outside 64 bits raises [OverflowError] ([None]), a NaN is bound as
    NULL (SQLite's [sqlite3_bind_double]). *)
Definition sqlite_bind (v : sval) : option sval :=
  match v with
  | SBool b => Some (SInt (if b then 1 else 0))
  | SInt z => if in_int64 z then Some (SInt z) else None
  | SFloat NaN => Some SNull
  | v => Some v
  end.

(** A REAL entering a column of INTEGER (or NUMERIC) affinity: an
    integral value strictly inside the 64-bit range becomes INTEGER. *)
Definition real_as_int (f : pyfloat) : sval :=
  match f with
  | Fin q =>
      let z := (Qnum q / Zpos (Qden q))%Z in
      if (Qnum q mod Zpos (Qden q) =? 0)%Z && (int64_min <? z)%Z && (z <? int64_max)%Z
      then SInt z else SFloat f
  | _ => SFloat f
  end.

(** The SQL types of the model's columns: [String]/[Text] (TEXT
    affinity), [Integer] (INTEGER affinity), [Float]. *)
Inductive coltype := CText | CInteger | CFloat.

Section Columns.
Context `{R : Runtime}.

(** SQLAlchemy's [Float] bind processor: [float(value)], [None] kept. *)
Definition to_float (v : sval) : option sval :=
  match v with
  | SNull => Some SNull
  | SBool b => Some (SFloat (Fin (if b then 1 else 0)))
  | SInt z => f ← float_of_int z; Some (SFloat f)
  | SFloat f => Some (SFloat f)
  | SStr s => f ← float_of_str s; Some (SFloat f)
  end.

(** TEXT affinity: a number is stored (or compared) as its text. *)
Definition text_affinity (v : sval) : sval :=
  match v with
  | SInt z => SStr (ztext z)
  | SFloat f => SStr (real_text f)
  | v => v
  end.

(** INTEGER affinity: numeric text becomes a number, an integral REAL
    an INTEGER; other text stays text. *)
Definition integer_affinity (v : sval) : sval :=
  match v with
  | SFloat f => real_as_int f
  | SStr s =>
      match text_numeric s with
      | Some (inl z) => SInt z
      | Some (inr f) => real_as_int f
      | None => SStr s
      end
  | v => v
  end.

(** A Python value written into a column of type [ty]: the stored value,
    or [None] when the flush raises. *)
Definition convert (ty : coltype) (p : sval) : option sval :=
  match ty with
  | CText => text_affinity <$> sqlite_bind p
  | CInteger => integer_affinity <$> sqlite_bind p
  | CFloat => x ← to_float p; sqlite_bind x
  end.

(** The value the ORM stores for an attribute on INSERT.  An attribute
    set to [None] is left out of the INSERT, so the column's Python-side
    [default=] is written instead, or NULL when there is none. *)
Definition store (ty : coltype) (dflt : option sval) (v : jval) : option sval :=
  p ← bind_param v;
  match p with
  | SNull => match dflt with Some x => convert ty x | None => Some SNull end
  | _ => convert ty p
  end.

(** The condition [filter_by(col=v)] puts on a [String] column:
    [Some None] is [col IS NULL] (for [v = None]); [Some (Some p)] is
    [col = ?] with [v] bound and given the column's TEXT affinity;
    [None] when binding raises. *)
Definition text_param (v : jval) : option (option sval) :=
  p ← bind_param v;
  match p with
  | SNull => Some None
  | _ => b ← sqlite_bind p; Some (Some (text_affinity b))
  end.
End Columns.

(** Whether a stored value satisfies a [filter_by] condition. *)
Definition text_match (c : sval) (cond : option sval) : bool :=
  match cond with
  | None => negb (not_null c)
  | Some p => sql_same c p
  end.

(** [datetime.datetime]: naive or with a UTC offset (in minutes). *)
Record datetime := mk_datetime {
  year : Z; month : Z; day : Z;
  hour : Z; minute : Z; second : Z; microsecond : Z;
  utcoffset : option Z
}.

(** SQLAlchemy's SQLite [DateTime] stores the string
    ['%Y-%m-%d %H:%M:%S.%f'] and reads it back as a naive datetime: the
    offset is dropped. *)
Definition naive (dt : datetime) : datetime :=
  mk_datetime (year dt) (month dt) (day dt) (hour dt) (minute dt) (second dt)
    (microsecond dt) None.

(* ------------------------------------------------------------------ *)
(** ** Models (tables) *)

Module User.
Record t := mk {
  id : Z;
  username : sval;   (* String(80), unique, NOT NULL *)
  password : sval;   (* String(120), NOT NULL *)
  role : sval        (* String(20), default 'user' *)
}.
End User.

Module Event.
Record t := mk {
  id : Z;
  title : sval;           (* String(200), NOT NULL *)
  description : sval;     (* Text *)
  date : option datetime; (* DateTime, nullable *)
  location : sval;        (* String(200) *)
  price : sval;           (* Float, default 0.0 *)
  organizer_id : sval     (* Integer, NOT NULL *)
}.
End Event.

Module Registration.
Record t := mk {
  id : Z;
  attendee_id : sval;       (* Integer, NOT NULL *)
  event_id : sval;          (* Integer, NOT NULL *)
  registration_type : sval  (* String(50) *)
}.
End Registration.

Module Payment.
Record t := mk {
  id : Z;
  user_id : sval;          (* Integer, NOT NULL *)
  event_id : sval;         (* Integer, NOT NULL *)
  amount : sval;           (* Float, NOT NULL *)
  payment_method : sval;   (* String(50) *)
  status : sval;           (* String(20), default 'pending' *)
  timestamp : datetime     (* DateTime, default datetime.utcnow *)
}.
End Payment.

(** The SQLite file: the rows of each table in rowid order. *)
Record db := mk_db {
  users : list User.t;
  events : list Event.t;
  registrations : list Registration.t;
  payments : list Payment.t
}.

(** Tables as [db.create_all()] leaves them. *)
Definition empty_db : db := mk_db [] [] [] [].

(** SQLite's rowid for a new row of an INTEGER PRIMARY KEY table:
    one more than the largest id, 1 for an empty table. *)
Definition next_id (ids : list Z) : Z := 1%Z + fold_right Z.max 0%Z ids.

(* ------------------------------------------------------------------ *)
(** ** Responses *)

Module Summary.
(** The dictionary built by [get_events] and [get_event]. *)
Record t := mk {
  id : Z;
  title : sval;
  description : sval;
  date : option string;
  location : sval;
  price : sval;
  organizer_id : sval
}.
End Summary.

Inductive response :=
| RMessage (msg : string)                               (* 200 {message} *)
| RLogin (msg : string) (id : Z) (username role : sval) (* 200 {message, user} *)
| RPayment (msg : string) (paymentStatus : sval)        (* 200 {message, paymentStatus} *)
| REvents (l : list Summary.t)                          (* 200 [...] *)
| REvent (s : Summary.t)                                (* 200 {...} *)
| RError (code : Z) (msg : string)                      (* {error} with status code *)
| RNotFound                                             (* abort(404) *)
| RServerError.                                         (* uncaught exception, 500 *)

Section Handlers.
Context `{R : Runtime}.

(* ------------------------------------------------------------------ *)
(** ** Inserts: [db.session.add(row); db.session.commit()]

    [None] is a commit that raises: a value the column's conversion
    refuses, a NULL in a NOT NULL column, or a duplicate in a UNIQUE
    column.  The session is then rolled back and the handler's exception
    propagates. *)

Definition insert_user (d : db) (username password role : jval) : option db :=
  u ← store CText None username;
  p ← store CText None password;
  r ← store CText (Some (SStr "user")) role;
  if not_null u && not_null p
     && negb (existsb (fun row => sql_same (User.username row) u) (users d))
  then Some (mk_db (users d ++ [User.mk (next_id (map User.id (users d))) u p r])
                   (events d) (registrations d) (payments d))
  else None.

Definition insert_event (d : db) (title description : jval)
    (date : option datetime) (location price organizer_id : jval) : option db :=
  t ← store CText None title;
  ds ← store CText None description;
  l ← store CText None location;
  pr ← store CFloat (Some (SFloat (Fin 0))) price;
  o ← store CInteger None organizer_id;
  if not_null t && not_null o
  then Some (mk_db (users d)
                   (events d ++ [Event.mk (next_id (map Event.id (events d))) t ds
                                   (option_map naive date) l pr o])
                   (registrations d) (payments d))
  else None.

Definition insert_registration (d : db) (attendee_id event_id registration_type : jval)
    : option db :=
  a ← store CInteger None attendee_id;
  e ← store CInteger None event_id;
  rt ← store CText None registration_type;
  if not_null a && not_null e
  then Some (mk_db (users d) (events d)
                   (registrations d ++
                      [Registration.mk (next_id (map Registration.id (registrations d))) a e rt])
                   (payments d))
  else None.

Definition insert_payment (d : db) (user_id event_id amount payment_method status : jval)
    (now : datetime) : option db :=
  u ← store CInteger None user_id;
  e ← store CInteger None event_id;
  a ← store CFloat None amount;
  m ← store CText None payment_method;
  s ← store CText (Some (SStr "pending")) status;
  if not_null u && not_null e && not_null a
  then Some (mk_db (users d) (events d) (registrations d)
                   (payments d ++
                      [Payment.mk (next_id (map Payment.id (payments d))) u e a m s (naive now)]))
  else None.

(** Commit, then answer [ok]; a failing commit is a server error. *)
Definition commit (d : db) (ins : option db) (ok : response) : response * db :=
  match ins with
  | Some d' => (ok, d')
  | None => (RServerError, d)
  end.

(* ------------------------------------------------------------------ *)
(** ** Endpoints *)

(** [POST /api/users/register] *)
Definition register_user (d : db) (data : json) : response * db :=
  let username := get data "username" in
  let password := get data "password" in
  let role := get_default data "role" (JStr "user") in
  if negb (truthy username) || negb (truthy password) then
    (RError 400 "Missing username or password", d)
  else
    match text_param username with
    | None => (RServerError, d)
    | Some c =>
        (* User.query.filter_by(username=username).first() *)
        if existsb (fun row => text_match (User.username row) c) (users d) then
          (RError 400 "Username already exists", d)
        else
          commit d (insert_user d username password role)
            (RMessage "User registered successfully")
    end.

(** [POST /api/users/login] *)
Definition login_user (d : db) (data : json) : response * db :=
  let username := get data "username" in
  let password := get data "password" in
  match text_param username, text_param password with
  | Some cu, Some cp =>
      (* User.query.filter_by(username=username, password=password).first() *)
      match find (fun row => text_match (User.username row) cu
                             && text_match (User.password row) cp) (users d) with
      | Some user =>
          (RLogin "Login successful" (User.id user) (User.username user) (User.role user), d)
      | None => (RError 400 "Invalid credentials", d)
      end
  | _, _ => (RServerError, d)
  end.

(** [POST /api/registrations] *)
Definition register_to_event (d : db) (data : json) : response * db :=
  let attendee_id := get data "attendee_id" in
  let event_id := get data "event_id" in
  let registration_type := get_default data "registration_type" (JStr "general") in
  if negb (truthy attendee_id) || negb (truthy event_id) then
    (RError 400 "Missing attendee_id or event_id", d)
  else
    commit d (insert_registration d attendee_id event_id registration_type)
      (RMessage "Registration successful").

(** [POST /api/payment]; [now] is [datetime.utcnow()] at the insert.
    [new_payment.status] is read back after the commit: the stored
    ['successful']. *)
Definition process_payment (d : db) (now : datetime) (data : json) : response * db :=
  let user_id := get data "user_id" in
  let event_id := get data "event_id" in
  let amount := get data "amount" in
  let payment_method := get data "payment_method" in
  if negb (truthy user_id && truthy event_id && truthy amount && truthy payment_method) then
    (RError 400 "Missing payment details", d)
  else
    match insert_payment d user_id event_id amount payment_method (JStr "successful") now with
    | Some d' => (RPayment "Payment processed successfully" (SStr "successful"), d')
    | None => (RServerError, d)
    end.

Section Dates.
(** The library's [datetime.fromisoformat] on a [str] ([None] is the
    [ValueError] it raises) and [datetime.isoformat]. *)
Context (fromisoformat : string -> option datetime).
Context (isoformat : datetime -> string).

(** [event.date.isoformat() if event.date else None]; a [datetime] is
    always truthy. *)
Definition summarize (e : Event.t) : Summary.t :=
  Summary.mk (Event.id e) (Event.title e) (Event.description e)
    (option_map isoformat (Event.date e))
    (Event.location e) (Event.price e) (Event.organizer_id e).

(** [GET /api/events]: [Event.query.all()] in rowid order. *)
Definition get_events (d : db) : response * db :=
  (REvents (map summarize (events d)), d).

(** [GET /api/events/<int:event_id>]: the route's converter accepts
    only digits, with no bound; [get_or_404] binds the id in its SELECT,
    where an id outside 64 bits raises [OverflowError]. *)
Definition get_event (d : db) (event_id : Z) : response * db :=
  if in_int64 event_id then
    match find (fun e => Z.eqb (Event.id e) event_id) (events d) with
    | Some e => (REvent (summarize e), d)
    | None => (RNotFound, d)
    end
  else (RServerError, d).

(** [datetime.fromisoformat(date_str) if date_str else None] inside
    [try ... except ValueError]: [inl] is the parsed date, [inr] the
    handler's answer.  A truthy non-string raises [TypeError], which
    is not caught. *)
Definition parse_date (date_str : jval) : option datetime + response :=
  if truthy date_str then
    match date_str with
    | JStr s =>
        match fromisoformat s with
        | Some dt => inl (Some dt)
        | None => inr (RError 400 "Invalid date format")
        end
    | _ => inr RServerError
    end
  else inl None.

(** [POST /api/events] *)
Definition create_event (d : db) (data : json) : response * db :=
  let title := get data "title" in
  let description := get data "description" in
  let date_str := get data "date" in
  let location := get data "location" in
  let price := get_default data "price" (JFloat 0) in
  let organizer_id := get data "organizer_id" in
  match parse_date date_str with
  | inr r => (r, d)
  | inl event_date =>
      commit d (insert_event d title description event_date location price organizer_id)
        (RMessage "Event created successfully")
  end.

(** The HTTP requests the application serves. *)
Inductive request :=
| ReqRegisterUser (data : json)
| ReqLoginUser (data : json)
| ReqGetEvents
| ReqGetEvent (event_id : Z)
| ReqCreateEvent (data : json)
| ReqRegisterToEvent (data : json)
| ReqProcessPayment (now : datetime) (data : json).

(** Flask's dispatch of a request to its handler. *)
Definition handle (d : db) (r : request) : response * db :=
  match r with
  | ReqRegisterUser data => register_user d data
  | ReqLoginUser data => login_user d data
  | ReqGetEvents => get_events d
  | ReqGetEvent id => get_event d id
  | ReqCreateEvent data => create_event d data
  | ReqRegisterToEvent data => register_to_event d data
  | ReqProcessPayment now data => process_payment d now data
  end.

(** States reachable from the freshly created tables by a sequence of
    requests. *)
Inductive reachable : db -> Prop :=
| reachable_init : reachable empty_db
| reachable_step d r : reachable d -> reachable (snd (handle d r)).
End Dates.
End Handlers.

(* ------------------------------------------------------------------ *)
(** ** Concrete library functions for concrete runs

    The date-only form [YYYY-MM-DD] accepted by [datetime.fromisoformat]
    (every Python version accepts it); anything else is refused.  And a
    runtime whose numeric strings are the optionally signed decimal
    integers.  Used to run the handlers on examples. *)

Definition iso_date (s : string) : option datetime :=
  match s with
  | String y1 (String y2 (String y3 (String y4 (String "-"%char
      (String m1 (String m2 (String "-"%char (String d1 (String d2 EmptyString))))))))) =>
      match digit y1, digit y2, digit y3, digit y4, digit m1, digit m2, digit d1, digit d2 with
      | Some a, Some b, Some c, Some e, Some f, Some g, Some h, Some i =>
          let y := (a * 1000 + b * 100 + c * 10 + e)%Z in
          let m := (f * 10 + g)%Z in
          let dd := (h * 10 + i)%Z in
          if (1 <=? m)%Z && (m <=? 12)%Z && (1 <=? dd)%Z && (dd <=? 31)%Z && (1 <=? y)%Z
          then Some (mk_datetime y m dd 0 0 0 0 None)
          else None
      | _, _, _, _, _, _, _, _ => None
      end
  | _ => None
  end.

Fixpoint dec_go (s : string) (acc : Z) : option Z :=
  match s with
  | EmptyString => Some acc
  | String c s' => n ← digit c; dec_go s' (acc * 10 + n)%Z
  end.

Definition dec_int (s : string) : option Z :=
  match s with
  | String "-"%char (String c s') => n ← digit c; z ← dec_go s' n; Some (- z)%Z
  | String c s' => n ← digit c; dec_go s' n
  | EmptyString => None
  end.

#[export] Instance sample_runtime : Runtime := {|
  float_of_str s := (fun z => Fin (inject_Z z)) <$> dec_int s;
  real_text f :=
    match f with
    | Fin q => String.append (ztext (Qnum q)) (String.append "/" (ztext (Zpos (Qden q))))
    | Inf false => "Inf"
    | Inf true => "-Inf"
    | NaN => "NaN"
    end;
  text_numeric s := inl <$> dec_int s
|}.

(** A sample body builder: [{k1: v1, k2: v2, ...}]. *)
Definition body (kvs : list (string * jval)) : json := list_to_map kvs.

(** Sample bodies and states. *)
Definition alice_secret : json :=
  body [("username", JStr "alice"); ("password", JStr "secret")].

Definition after_alice : db := snd (register_user empty_db alice_secret).

(** A user whose password is the text ["123"]. *)
Definition after_bob : db :=
  snd (register_user empty_db (body [("username", JStr "bob"); ("password", JStr "123")])).

(** The UNIQUE constraint on [User.username]: two rows whose usernames
    compare equal are the same row. *)
Definition unique_usernames (l : list User.t) : Prop :=
  forall r1 r2, In r1 l -> In r2 l ->
  sql_same (User.username r1) (User.username r2) = true -> r1 = r2.

(** A sample value of [datetime.utcnow()]. *)
Definition sample_now : datetime := mk_datetime 2024 5 1 12 0 0 0 None.

(** Row ids strictly increase along the table (rowid order). *)
Definition ids_increasing (ids : list Z) : Prop :=
  forall i j x y, (i < j)%nat -> ids !! i = Some x -> ids !! j = Some y -> (x < y)%Z.

(** Storage classes of stored values. *)
Definition is_text (v : sval) : bool := match v with SStr _ => true | _ => false end.
Definition is_real (v : sval) : bool := match v with SFloat _ => true | _ => false end.
Definition text_or_null (v : sval) : bool := is_text v || negb (not_null v).
Definition real_or_null (v : sval) : bool := is_real v || negb (not_null v).
Definition is_naive (dt : datetime) : bool :=
  match utcoffset dt with None => true | Some _ => false end.

(** Each stored value has its column's storage class: String and Text
    columns hold TEXT or NULL, Float columns REAL or NULL, NOT NULL
    columns no NULL, and DateTime columns naive datetimes. *)
Definition user_typed (u : User.t) : bool :=
  is_text (User.username u) && is_text (User.password u) && text_or_null (User.role u).

Definition event_typed (e : Event.t) : bool :=
  is_text (Event.title e) && text_or_null (Event.description e)
  && text_or_null (Event.location e) && real_or_null (Event.price e)
  && not_null (Event.organizer_id e)
  && match Event.date e with Some dt => is_naive dt | None => true end.

Definition registration_typed (r : Registration.t) : bool :=
  not_null (Registration.attendee_id r) && not_null (Registration.event_id r)
  && text_or_null (Registration.registration_type r).

Definition payment_typed (p : Payment.t) : bool :=
  not_null (Payment.user_id p) && not_null (Payment.event_id p)
  && is_real (Payment.amount p) && text_or_null (Payment.payment_method p)
  && is_text (Payment.status p) && is_naive (Payment.timestamp p).

Definition rows_typed (d : db) : bool :=
  forallb user_typed (users d) && forallb event_typed (events d)
  && forallb registration_typed (registrations d) && forallb payment_typed (payments d).

(* ------------------------------------------------------------------ *)
(** ** Lemmas about values and queries *)

(** Case on each column value an INSERT stores. *)
Ltac split_columns :=
  repeat match goal with
  | |- context [store ?t ?a ?b] => destruct (store t a b); simpl
  end.

(** The same, in hypothesis [H]. *)
Ltac split_columns_in H :=
  repeat match type of H with
  | context [store ?t ?a ?b] => destruct (store t a b); simpl in H
  end.

(** Close an [if c then Some (mk_db ..) else None = Some d'] hypothesis. *)
Ltac insert_done H :=
  split_columns_in H; try discriminate;
  repeat match type of H with
  | context [if ?c then _ else _] => destruct c; try discriminate
  end;
  injection H as <-.

Section Basics.
Context `{R : Runtime}.

Lemma truthy_str (s : string) : s <> "" -> truthy (JStr s) = true.
Proof. intros Hs. simpl. apply String.eqb_neq in Hs. by rewrite Hs. Qed.

Lemma store_str (dflt : option sval) (s : string) : store CText dflt (JStr s) = Some (SStr s).
Proof. reflexivity. Qed.

Lemma text_param_str (s : string) : text_param (JStr s) = Some (Some (SStr s)).
Proof. reflexivity. Qed.

Lemma sql_same_str (x y : string) : sql_same (SStr x) (SStr y) = true <-> x = y.
Proof. simpl. apply String.eqb_eq. Qed.

Lemma sql_same_str_r (v : sval) (s : string) : sql_same v (SStr s) = true -> v = SStr s.
Proof. destruct v; simpl; try discriminate. by intros ->%String.eqb_eq. Qed.

Lemma not_null_neq (v : sval) : v <> SNull -> not_null v = true.
Proof. by destruct v. Qed.

Lemma existsb_username_fresh (l : list User.t) (u : string) :
  (forall row, In row l -> User.username row <> SStr u) ->
  existsb (fun row => sql_same (User.username row) (SStr u)) l = false.
Proof.
  induction l as [|r l IH]; intros Hfresh; [done|].
  simpl. rewrite IH by (intros; apply Hfresh; by right).
  destruct (sql_same (User.username r) (SStr u)) eqn:E; [|done].
  apply sql_same_str_r in E. exfalso. apply (Hfresh r); [by left | done].
Qed.

Lemma existsb_username_taken (l : list User.t) (row : User.t) (u : string) :
  In row l -> User.username row = SStr u ->
  existsb (fun row => sql_same (User.username row) (SStr u)) l = true.
Proof.
  intros Hin Hu. apply existsb_exists. exists row. split; [done|].
  rewrite Hu. by apply sql_same_str.
Qed.

Lemma lookup_map {A B} (f : A -> B) (l : list A) (i : nat) :
  map f l !! i = option_map f (l !! i).
Proof. revert i. induction l as [|x l IH]; intros [|i]; simpl; auto. Qed.

(** [.first()] on a table whose only match is the row just appended. *)
Lemma find_app_last {A} (f : A -> bool) (l : list A) (x : A) :
  (forall y, In y l -> f y = false) -> f x = true -> find f (l ++ [x]) = Some x.
Proof.
  induction l as [|y l IH]; intros Hl Hx; simpl; [by rewrite Hx|].
  rewrite Hl by (by left). apply IH; [|done]. intros; apply Hl; by right.
Qed.

(** A login with the username and password of a row, in a table with
    unique usernames, finds that row. *)
Lemma find_login_row (l : list User.t) (row : User.t) (u : string) (cp : option sval) :
  unique_usernames l -> In row l -> User.username row = SStr u ->
  text_match (User.password row) cp = true ->
  find (fun r => text_match (User.username r) (Some (SStr u))
                 && text_match (User.password r) cp) l = Some row.
Proof.
  intros Huniq Hin Hu Hp.
  destruct (find _ l) as [r|] eqn:F.
  - apply find_some in F as [Hr Hf].
    apply andb_prop in Hf as [Hfu _]. simpl in Hfu. apply sql_same_str_r in Hfu.
    f_equal. apply Huniq; [done|done|]. rewrite Hfu, Hu. by apply sql_same_str.
  - pose proof (find_none _ _ F row Hin) as Hf. cbv beta in Hf.
    rewrite Hu, Hp in Hf. simpl in Hf. rewrite String.eqb_refl in Hf. discriminate.
Qed.
End Basics.

(* ------------------------------------------------------------------ *)
(** ** Registration and login *)

Section Accounts.
Context `{R : Runtime}.

(** C1 (amended): registering a non-empty username [u] that no row holds,
    with a non-empty password [p] and a role the String column can
    store, appends exactly one User row (id the next rowid, role as
    stored: ['user'] when absent or null, a number as its text) and
    answers the success message; a login with [u] and [p] then returns
    that row's id, username and role. *)
Theorem register_then_login (d : db) (data login : json) (u p : string) (role : sval) :
  data !! "username" = Some (JStr u) ->
  data !! "password" = Some (JStr p) ->
  store CText (Some (SStr "user")) (get_default data "role" (JStr "user")) = Some role ->
  u <> "" -> p <> "" ->
  (forall row, In row (users d) -> User.username row <> SStr u) ->
  login !! "username" = Some (JStr u) ->
  login !! "password" = Some (JStr p) ->
  let uid := next_id (map User.id (users d)) in
  let d' := mk_db (users d ++ [User.mk uid (SStr u) (SStr p) role])
              (events d) (registrations d) (payments d) in
  register_user d data = (RMessage "User registered successfully", d') /\
  login_user d' login = (RLogin "Login successful" uid (SStr u) role, d').
Proof.
  intros Hu Hp Hrole Hu0 Hp0 Hfresh Hlu Hlp uid d'.
  pose proof (existsb_username_fresh (users d) u Hfresh) as Hnone.
  split.
  - unfold register_user, get. rewrite Hu, Hp. simpl default.
    rewrite !truthy_str by done. simpl negb. simpl orb. cbv iota beta.
    rewrite text_param_str. simpl text_match. rewrite Hnone.
    unfold commit, insert_user. rewrite !store_str, Hrole.
    simpl. rewrite Hnone. done.
  - unfold login_user, get. rewrite Hlu, Hlp. simpl default.
    rewrite !text_param_str. subst d' uid. simpl.
    rewrite find_app_last; [done| |simpl; by rewrite !String.eqb_refl].
    intros y Hy. destruct (sql_same (User.username y) (SStr u)) eqn:E; [|done].
    apply sql_same_str_r in E. exfalso. by apply (Hfresh y).
Qed.

(** C2 (amended): when some row holds the non-empty username [u], a
    registration with [u] and any truthy password (equal to the stored one
    or not) answers 400 "Username already exists" and changes nothing. *)
Theorem register_duplicate_username (d : db) (data : json) (u : string) (row : User.t) :
  In row (users d) -> User.username row = SStr u -> u <> "" ->
  data !! "username" = Some (JStr u) ->
  truthy (get data "password") = true ->
  register_user d data = (RError 400 "Username already exists", d).
Proof.
  intros Hin Hrow Hu0 Hu Hp.
  unfold register_user. rewrite Hp. unfold get. rewrite Hu. simpl default.
  rewrite truthy_str by done. cbn [negb orb]. rewrite text_param_str.
  simpl text_match. by rewrite (existsb_username_taken (users d) row u).
Qed.

(** C3 (amended): when the stored row for [u] has password [p], a login
    with [u] and any string [p'] other than [p] answers 400 "Invalid
    credentials" (the comparison is exact, so no partial or
    case-insensitive match). *)
Theorem login_wrong_password (d : db) (login : json) (row : User.t) (u p p' : string) :
  unique_usernames (users d) ->
  In row (users d) -> User.username row = SStr u -> User.password row = SStr p ->
  p' <> p ->
  login !! "username" = Some (JStr u) ->
  login !! "password" = Some (JStr p') ->
  login_user d login = (RError 400 "Invalid credentials", d).
Proof.
  intros Huniq Hin Hu Hp Hne Hlu Hlp.
  unfold login_user, get. rewrite Hlu, Hlp. simpl default. rewrite !text_param_str.
  match goal with |- context [find ?f (users d)] =>
    destruct (find f (users d)) as [r|] eqn:F; [|done] end.
  apply find_some in F as [Hr Hf].
  apply andb_prop in Hf as [Hfu Hfp]. simpl in Hfu, Hfp.
  apply sql_same_str_r in Hfu, Hfp.
  assert (r = row) as ->.
  { apply Huniq; [done|done|]. rewrite Hfu, Hu. by apply sql_same_str. }
  congruence.
Qed.
End Accounts.

(** C1 (counterexample): the empty username occurs in no row of the
    fresh tables, yet registering it with a non-empty password is
    refused by the [not username] guard. *)
Lemma C1_empty_username_refused :
  (forall row, In row (users empty_db) -> User.username row <> SStr "") /\
  register_user empty_db (body [("username", JStr ""); ("password", JStr "secret")])
    = (RError 400 "Missing username or password", empty_db).
Proof. split; [intros row []|reflexivity]. Qed.

Lemma register_then_login_witness :
  register_user empty_db alice_secret
    = (RMessage "User registered successfully",
       mk_db [User.mk 1 (SStr "alice") (SStr "secret") (SStr "user")] [] [] []) /\
  login_user (mk_db [User.mk 1 (SStr "alice") (SStr "secret") (SStr "user")] [] [] [])
    alice_secret
    = (RLogin "Login successful" 1 (SStr "alice") (SStr "user"),
       mk_db [User.mk 1 (SStr "alice") (SStr "secret") (SStr "user")] [] [] []).
Proof.
  apply (register_then_login empty_db alice_secret alice_secret "alice" "secret" (SStr "user")).
  - reflexivity.
  - reflexivity.
  - reflexivity.
  - discriminate.
  - discriminate.
  - intros row [].
  - reflexivity.
  - reflexivity.
Defined.

(** C2 (counterexample): after [alice] registered, registering [alice]
    again with an empty password gets the missing-field error, not the
    duplicate-username error. *)
Lemma C2_duplicate_with_empty_password :
  (exists row, In row (users after_alice) /\ User.username row = SStr "alice") /\
  register_user after_alice (body [("username", JStr "alice"); ("password", JStr "")])
    = (RError 400 "Missing username or password", after_alice).
Proof.
  split; [|reflexivity].
  eexists. split; [left; reflexivity|reflexivity].
Qed.

Lemma register_duplicate_username_witness :
  register_user after_alice (body [("username", JStr "alice"); ("password", JStr "other")])
    = (RError 400 "Username already exists", after_alice).
Proof.
  apply (register_duplicate_username after_alice _ "alice"
           (User.mk 1 (SStr "alice") (SStr "secret") (SStr "user"))).
  - vm_compute. left. reflexivity.
  - reflexivity.
  - discriminate.
  - reflexivity.
  - reflexivity.
Defined.

(** C3 (counterexample): [bob]'s stored password is the text ["123"];
    a login with the JSON number [123], which is not that string, logs
    in: the bound integer takes the column's TEXT affinity and compares
    equal to ["123"].  (Only integers and strings are involved, so no
    library parameter matters.) *)
Lemma C3_numeric_password_matches :
  (exists row, In row (users after_bob) /\
     User.username row = SStr "bob" /\ User.password row = SStr "123") /\
  login_user after_bob (body [("username", JStr "bob"); ("password", JInt 123)])
    = (RLogin "Login successful" 1 (SStr "bob") (SStr "user"), after_bob).
Proof.
  split; [|reflexivity].
  eexists. split; [left; reflexivity|split; reflexivity].
Qed.

Lemma login_wrong_password_witness :
  login_user after_alice (body [("username", JStr "alice"); ("password", JStr "Secret")])
    = (RError 400 "Invalid credentials", after_alice).
Proof.
  apply (login_wrong_password after_alice _ (User.mk 1 (SStr "alice") (SStr "secret") (SStr "user"))
           "alice" "secret" "Secret").
  - intros r1 r2 [<-|[]] [<-|[]] _. reflexivity.
  - left. reflexivity.
  - reflexivity.
  - reflexivity.
  - discriminate.
  - reflexivity.
  - reflexivity.
Defined.

(* ------------------------------------------------------------------ *)
(** ** Event creation *)

Section Events.
Context `{R : Runtime}.

(** C4 (amended): a body that omits [title] or [organizer_id] meets no
    presence check of the handler (only a bad date gives its 400), but
    the commit fails on the NOT NULL column: a server error, and the
    tables are unchanged. *)
Theorem create_event_missing_required (fromiso : string -> option datetime)
    (d : db) (data : json) :
  data !! "title" = None \/ data !! "organizer_id" = None ->
  create_event fromiso d data =
    (match parse_date fromiso (get data "date") with
     | inr r => r
     | inl _ => RServerError
     end, d).
Proof.
  intros Hmiss. unfold create_event.
  destruct (parse_date fromiso (get data "date")) as [date|r]; [|done].
  unfold commit, insert_event.
  destruct Hmiss as [Ht|Ho].
  - unfold get. rewrite Ht. simpl. by split_columns.
  - unfold get. rewrite Ho. simpl. split_columns; try done.
    by rewrite andb_false_r.
Qed.

(** C5: a non-empty string [date] that the parser refuses answers 400
    "Invalid date format" and leaves every table unchanged. *)
Theorem create_event_bad_date (fromiso : string -> option datetime)
    (d : db) (data : json) (s : string) :
  data !! "date" = Some (JStr s) -> s <> "" -> fromiso s = None ->
  create_event fromiso d data = (RError 400 "Invalid date format", d).
Proof.
  intros Hdate Hs Hparse.
  unfold create_event, parse_date.
  replace (get data "date") with (JStr s) by (unfold get; by rewrite Hdate).
  rewrite truthy_str by done. by rewrite Hparse.
Qed.

(** C10 (amended): [date = ""] is treated exactly as an omitted date and
    never as a malformed one; when every column can be stored ([title]
    and [organizer_id] not null, each value accepted by its column's
    conversion) the call succeeds and appends one Event row whose date
    is null. *)
Theorem create_event_empty_date (fromiso : string -> option datetime)
    (d : db) (data : json) :
  data !! "date" = Some (JStr "") ->
  create_event fromiso d data = create_event fromiso d (delete "date" data) /\
  fst (create_event fromiso d data) <> RError 400 "Invalid date format" /\
  (forall t ds l pr o,
     store CText None (get data "title") = Some t -> t <> SNull ->
     store CText None (get data "description") = Some ds ->
     store CText None (get data "location") = Some l ->
     store CFloat (Some (SFloat (Fin 0))) (get_default data "price" (JFloat 0)) = Some pr ->
     store CInteger None (get data "organizer_id") = Some o -> o <> SNull ->
     create_event fromiso d data =
       (RMessage "Event created successfully",
        mk_db (users d)
          (events d ++ [Event.mk (next_id (map Event.id (events d))) t ds None l pr o])
          (registrations d) (payments d))).
Proof.
  intros Hdate.
  assert (Hparse : parse_date fromiso (get data "date") = inl None).
  { unfold get. by rewrite Hdate. }
  split; [|split].
  - unfold create_event. rewrite Hparse.
    unfold get, get_default. rewrite lookup_delete_eq.
    rewrite !lookup_delete_ne by discriminate. reflexivity.
  - unfold create_event. rewrite Hparse. unfold commit.
    by destruct (insert_event _ _ _ _ _ _ _).
  - intros t ds l pr o Et Nt Eds El Epr Eo No.
    unfold create_event. rewrite Hparse. unfold commit, insert_event.
    rewrite Et, Eds, El, Epr, Eo. simpl.
    by rewrite !not_null_neq.
Qed.
End Events.

Lemma create_event_bad_date_witness :
  create_event iso_date after_alice
    (body [("title", JStr "Conf"); ("organizer_id", JInt 1); ("date", JStr "not-a-date")])
    = (RError 400 "Invalid date format", after_alice).
Proof.
  apply (create_event_bad_date iso_date after_alice _ "not-a-date").
  - reflexivity.
  - discriminate.
  - reflexivity.
Defined.

(** C4 (counterexample): a body without [title] passes the handler, but
    the INSERT puts NULL into the NOT NULL [title] column: the commit
    raises and no row is stored. *)
Lemma C4_missing_title_not_persisted :
  create_event iso_date empty_db
    (body [("description", JStr "Talks"); ("organizer_id", JInt 1)])
    = (RServerError, empty_db).
Proof. reflexivity. Qed.

Lemma create_event_missing_required_witness :
  create_event iso_date after_alice (body [("title", JStr "Conf"); ("date", JStr "2024-05-01")])
    = (RServerError, after_alice).
Proof.
  rewrite (create_event_missing_required iso_date after_alice
             (body [("title", JStr "Conf"); ("date", JStr "2024-05-01")])).
  - reflexivity.
  - right. reflexivity.
Defined.

(** C10 (counterexample): [date = ""] with no [title] does not succeed:
    the commit fails on the NOT NULL [title] column. *)
Lemma C10_empty_date_without_title :
  create_event iso_date empty_db (body [("date", JStr "")]) = (RServerError, empty_db).
Proof. reflexivity. Qed.

Lemma create_event_empty_date_witness :
  create_event iso_date after_alice
    (body [("title", JStr "Conf"); ("organizer_id", JInt 1); ("date", JStr "")])
    = create_event iso_date after_alice
        (delete "date" (body [("title", JStr "Conf"); ("organizer_id", JInt 1); ("date", JStr "")])) /\
  fst (create_event iso_date after_alice
         (body [("title", JStr "Conf"); ("organizer_id", JInt 1); ("date", JStr "")]))
    <> RError 400 "Invalid date format" /\
  (forall t ds l pr o,
     store CText None (get (body [("title", JStr "Conf"); ("organizer_id", JInt 1); ("date", JStr "")]) "title") = Some t -> t <> SNull ->
     store CText None (get (body [("title", JStr "Conf"); ("organizer_id", JInt 1); ("date", JStr "")]) "description") = Some ds ->
     store CText None (get (body [("title", JStr "Conf"); ("organizer_id", JInt 1); ("date", JStr "")]) "location") = Some l ->
     store CFloat (Some (SFloat (Fin 0)))
       (get_default (body [("title", JStr "Conf"); ("organizer_id", JInt 1); ("date", JStr "")]) "price" (JFloat 0)) = Some pr ->
     store CInteger None (get (body [("title", JStr "Conf"); ("organizer_id", JInt 1); ("date", JStr "")]) "organizer_id") = Some o ->
     o <> SNull ->
     create_event iso_date after_alice
       (body [("title", JStr "Conf"); ("organizer_id", JInt 1); ("date", JStr "")]) =
       (RMessage "Event created successfully",
        mk_db (users after_alice)
          (events after_alice ++ [Event.mk (next_id (map Event.id (events after_alice))) t ds None l pr o])
          (registrations after_alice) (payments after_alice))).
Proof.
  apply (create_event_empty_date iso_date after_alice
           (body [("title", JStr "Conf"); ("organizer_id", JInt 1); ("date", JStr "")])).
  reflexivity.
Defined.

(* ------------------------------------------------------------------ *)
(** ** Registrations and payments *)

Section Payments.
Context `{R : Runtime}.

(** C9: a falsy [attendee_id] or [event_id] ([0], [""], [false], [null],
    ...) is refused with 400 "Missing attendee_id or event_id", nothing
    is inserted, and the answer is the one for a body without that
    field. *)
Theorem register_to_event_falsy (d : db) (data : json) (k : string) :
  k = "attendee_id" \/ k = "event_id" ->
  truthy (get data k) = false ->
  register_to_event d data = (RError 400 "Missing attendee_id or event_id", d) /\
  register_to_event d (delete k data) = register_to_event d data.
Proof.
  intros Hk Hfalsy.
  assert (Hmissing : forall data', truthy (get data' k) = false ->
            register_to_event d data' = (RError 400 "Missing attendee_id or event_id", d)).
  { intros data' Hf. unfold register_to_event.
    destruct Hk as [->| ->]; rewrite Hf; simpl; [done|].
    by rewrite orb_true_r. }
  split; [by apply Hmissing|].
  rewrite !Hmissing; [done|done|].
  unfold get. by rewrite lookup_delete_eq.
Qed.


(* ------------------------------------------------------------------ *)
(** ** The Payment table across requests *)

Lemma insert_user_payments (d d' : db) (a b c : jval) :
  insert_user d a b c = Some d' -> payments d' = payments d.
Proof. unfold insert_user. intros H. insert_done H. reflexivity. Qed.

Lemma insert_event_payments (d d' : db) (a b : jval) (dt : option datetime) (c e f : jval) :
  insert_event d a b dt c e f = Some d' -> payments d' = payments d.
Proof. unfold insert_event. intros H. insert_done H. reflexivity. Qed.

Lemma insert_registration_payments (d d' : db) (a b c : jval) :
  insert_registration d a b c = Some d' -> payments d' = payments d.
Proof. unfold insert_registration. intros H. insert_done H. reflexivity. Qed.

Lemma insert_payment_payments (d d' : db) (a b c e : jval) (now : datetime) :
  insert_payment d a b c e (JStr "successful") now = Some d' ->
  exists row, payments d' = payments d ++ [row] /\ Payment.status row = SStr "successful".
Proof.
  unfold insert_payment. intros H. rewrite store_str in H.
  insert_done H. eexists. split; reflexivity.
Qed.

(** One request appends to the Payment table rows whose status is
    ['successful'], and keeps the existing rows. *)
Lemma handle_payments (fromiso : string -> option datetime) (iso : datetime -> string)
    (d : db) (r : request) :
  exists extra, payments (snd (handle fromiso iso d r)) = payments d ++ extra /\
                Forall (fun p => Payment.status p = SStr "successful") extra.
Proof.
  assert (Hsame : forall d', payments d' = payments d ->
            exists extra, payments d' = payments d ++ extra /\
                          Forall (fun p => Payment.status p = SStr "successful") extra).
  { intros d' ->. exists []. by rewrite app_nil_r. }
  destruct r as [data|data| |id|data|data|now data]; simpl.
  - unfold register_user, commit. repeat case_match; simpl; apply Hsame;
      eauto using insert_user_payments.
  - unfold login_user. repeat case_match; by apply Hsame.
  - by apply Hsame.
  - unfold get_event. repeat case_match; by apply Hsame.
  - unfold create_event, commit. repeat case_match; simpl; apply Hsame;
      eauto using insert_event_payments.
  - unfold register_to_event, commit. repeat case_match; simpl; apply Hsame;
      eauto using insert_registration_payments.
  - unfold process_payment. repeat case_match; simpl; try (by apply Hsame).
    match goal with H : insert_payment _ _ _ _ _ _ _ = Some _ |- _ =>
      apply insert_payment_payments in H as (row & -> & Hst) end.
    exists [row]. split; [done|]. by constructor.
Qed.

(** C7: in every state reachable from the fresh tables, every Payment
    row has status ['successful'] (so ['pending'] and ['failed'] never
    occur), and no request changes or removes an existing Payment row:
    the table after any request extends the table before it. *)
Theorem payments_always_successful (fromiso : string -> option datetime)
    (iso : datetime -> string) (d : db) :
  reachable fromiso iso d ->
  Forall (fun p => Payment.status p = SStr "successful") (payments d) /\
  forall r, exists extra, payments (snd (handle fromiso iso d r)) = payments d ++ extra.
Proof.
  intros Hreach. split.
  - induction Hreach as [|d r _ IH]; [constructor|].
    destruct (handle_payments fromiso iso d r) as (extra & -> & Hextra).
    by apply Forall_app.
  - intros r. destruct (handle_payments fromiso iso d r) as (extra & Heq & _). eauto.
Qed.

(* ------------------------------------------------------------------ *)
(** ** Listing events *)

(** C8: [GET /api/events] changes nothing and returns one summary per
    stored Event row, in the rows' order: the i-th summary carries the
    i-th row's fields, its date being the row's date through
    [isoformat] or null when the row has none. *)
Theorem get_events_all_rows (iso : datetime -> string) (d : db) :
  snd (get_events iso d) = d /\
  exists l, fst (get_events iso d) = REvents l /\
    length l = length (events d) /\
    forall i e, events d !! i = Some e ->
      exists s, l !! i = Some s /\
        Summary.id s = Event.id e /\
        Summary.title s = Event.title e /\
        Summary.description s = Event.description e /\
        Summary.date s = (match Event.date e with
                          | Some dt => Some (iso dt)
                          | None => None
                          end) /\
        Summary.location s = Event.location e /\
        Summary.price s = Event.price e /\
        Summary.organizer_id s = Event.organizer_id e.
Proof.
  split; [done|].
  exists (map (summarize iso) (events d)). split; [done|]. split.
  - apply length_map.
  - intros i e He. rewrite lookup_map, He. eexists. split; [reflexivity|].
    unfold summarize. simpl. repeat split.
Qed.
End Payments.

Lemma register_to_event_falsy_witness :
  register_to_event after_alice (body [("attendee_id", JInt 0); ("event_id", JInt 1)])
    = (RError 400 "Missing attendee_id or event_id", after_alice) /\
  register_to_event after_alice (delete "attendee_id" (body [("attendee_id", JInt 0); ("event_id", JInt 1)]))
    = register_to_event after_alice (body [("attendee_id", JInt 0); ("event_id", JInt 1)]).
Proof.
  apply (register_to_event_falsy after_alice _ "attendee_id").
  - left. reflexivity.
  - reflexivity.
Defined.


Lemma payments_always_successful_witness :
  let d := snd (handle iso_date (fun _ => "") empty_db
                  (ReqProcessPayment sample_now
                     (body [("user_id", JInt 1); ("event_id", JInt 1);
                            ("amount", JInt 10); ("payment_method", JStr "card")]))) in
  Forall (fun p => Payment.status p = SStr "successful") (payments d) /\
  forall r, exists extra,
    payments (snd (handle iso_date (fun _ => "") d r)) = payments d ++ extra.
Proof.
  apply payments_always_successful.
  apply reachable_step. apply reachable_init.
Defined.

(* ------------------------------------------------------------------ *)
(** ** What one request does to the tables *)

(** Case on each column value an INSERT stores, keeping the equations. *)
Ltac columns_eqn_in H :=
  repeat match type of H with
  | context [store ?t ?a ?b] =>
      let E := fresh "E" in destruct (store t a b) eqn:E; simpl in H;
      try discriminate
  end;
  repeat match type of H with
  | context [if ?c then _ else _] =>
      let C := fresh "C" in destruct c eqn:C; try discriminate
  end;
  injection H as <-;
  repeat match goal with
  | C : _ && _ = true |- _ => apply andb_prop in C as [? ?]
  | C : negb _ = true |- _ => apply negb_true_iff in C
  end.

(** Turn the guards the handlers passed into facts about each field. *)
Ltac guards :=
  repeat match goal with
  | H : _ || _ = false |- _ => apply orb_false_iff in H as [? ?]
  | H : negb _ = false |- _ => apply negb_false_iff in H
  | H : _ && _ = true |- _ => apply andb_prop in H as [? ?]
  end.

(** Instantiate existentials and conjunctions from the context. *)
Ltac fill :=
  repeat match goal with
  | |- ex _ => eexists
  | |- _ /\ _ => split
  end; eassumption.

Section Steps.
Context `{R : Runtime}.

Lemma insert_user_shape (d d' : db) (a b c : jval) :
  insert_user d a b c = Some d' ->
  exists u p r,
    store CText None a = Some u /\ store CText None b = Some p /\
    store CText (Some (SStr "user")) c = Some r /\
    not_null u = true /\ not_null p = true /\
    existsb (fun row => sql_same (User.username row) u) (users d) = false /\
    d' = mk_db (users d ++ [User.mk (next_id (map User.id (users d))) u p r])
           (events d) (registrations d) (payments d).
Proof. unfold insert_user. intros H. columns_eqn_in H. by do 3 eexists. Qed.

Lemma insert_event_shape (d d' : db) (a b : jval) (dt : option datetime) (c e f : jval) :
  insert_event d a b dt c e f = Some d' ->
  exists t ds l pr o,
    store CText None a = Some t /\ store CText None b = Some ds /\
    store CText None c = Some l /\ store CFloat (Some (SFloat (Fin 0))) e = Some pr /\
    store CInteger None f = Some o /\
    not_null t = true /\ not_null o = true /\
    d' = mk_db (users d)
           (events d ++ [Event.mk (next_id (map Event.id (events d))) t ds
                           (option_map naive dt) l pr o])
           (registrations d) (payments d).
Proof. unfold insert_event. intros H. columns_eqn_in H. by do 5 eexists. Qed.

Lemma insert_registration_shape (d d' : db) (a b c : jval) :
  insert_registration d a b c = Some d' ->
  exists x y rt,
    store CInteger None a = Some x /\ store CInteger None b = Some y /\
    store CText None c = Some rt /\ not_null x = true /\ not_null y = true /\
    d' = mk_db (users d) (events d)
           (registrations d ++
              [Registration.mk (next_id (map Registration.id (registrations d))) x y rt])
           (payments d).
Proof. unfold insert_registration. intros H. columns_eqn_in H. by do 3 eexists. Qed.

Lemma insert_payment_shape (d d' : db) (a b c e : jval) (now : datetime) :
  insert_payment d a b c e (JStr "successful") now = Some d' ->
  exists u ev am m,
    store CInteger None a = Some u /\ store CInteger None b = Some ev /\
    store CFloat None c = Some am /\ store CText None e = Some m /\
    not_null u = true /\ not_null ev = true /\ not_null am = true /\
    d' = mk_db (users d) (events d) (registrations d)
           (payments d ++
              [Payment.mk (next_id (map Payment.id (payments d))) u ev am m
                 (SStr "successful") (naive now)]).
Proof.
  unfold insert_payment. intros H. rewrite store_str in H.
  columns_eqn_in H. by do 4 eexists.
Qed.

(** A request leaves the tables as they were, or commits exactly one
    INSERT, made only after the handler's guards passed. *)
Lemma handle_cases (fromiso : string -> option datetime) (iso : datetime -> string)
    (d : db) (r : request) :
  let d' := snd (handle fromiso iso d r) in
  d' = d \/
  (exists un pw ro, insert_user d un pw ro = Some d' /\
     truthy un = true /\ truthy pw = true) \/
  (exists t ds dt l pr o, insert_event d t ds dt l pr o = Some d') \/
  (exists a e rt, insert_registration d a e rt = Some d' /\
     truthy a = true /\ truthy e = true) \/
  (exists u e a m now, insert_payment d u e a m (JStr "successful") now = Some d' /\
     truthy u = true /\ truthy e = true /\ truthy a = true /\ truthy m = true).
Proof.
  intros d'. subst d'.
  destruct r as [data|data| |id|data|data|now data]; simpl.
  - unfold register_user, commit. repeat case_match; simpl; guards; try (left; reflexivity).
    right; left. fill.
  - unfold login_user. repeat case_match; left; reflexivity.
  - left; reflexivity.
  - unfold get_event. repeat case_match; left; reflexivity.
  - unfold create_event, commit. repeat case_match; simpl; try (left; reflexivity).
    right; right; left. fill.
  - unfold register_to_event, commit. repeat case_match; simpl; guards; try (left; reflexivity).
    right; right; right; left. fill.
  - unfold process_payment. repeat case_match; simpl; guards; try (left; reflexivity).
    right; right; right; right. fill.
Qed.

(* ------------------------------------------------------------------ *)
(** ** Invariants of the reachable states *)

Lemma next_id_gt (ids : list Z) (x : Z) : In x ids -> (x < next_id ids)%Z.
Proof.
  unfold next_id. induction ids as [|y ids IH]; simpl; [done|].
  intros [->|H]; [lia|]. specialize (IH H). lia.
Qed.

Lemma next_id_pos (ids : list Z) : (1 <= next_id ids)%Z.
Proof. unfold next_id. induction ids as [|y ids IH]; simpl; lia. Qed.

Lemma ids_increasing_snoc (ids : list Z) :
  ids_increasing ids -> ids_increasing (ids ++ [next_id ids]).
Proof.
  intros Hinc i j x y Hij Hi Hj.
  rewrite lookup_app in Hi, Hj.
  destruct (ids !! i) as [x'|] eqn:Ei.
  - injection Hi as <-.
    destruct (ids !! j) as [y'|] eqn:Ej.
    + injection Hj as <-. by apply (Hinc i j).
    + apply lookup_ge_None in Ej.
      destruct (j - length ids)%nat as [|k]; simpl in Hj; [|by destruct k].
      injection Hj as <-. apply next_id_gt.
      apply list_elem_of_In. by apply list_elem_of_lookup_2 with i.
  - apply lookup_ge_None in Ei.
    destruct (ids !! j) eqn:Ej.
    + apply lookup_lt_Some in Ej. lia.
    + apply lookup_ge_None in Ej.
      destruct (i - length ids)%nat as [|k] eqn:Ek; [|by destruct k].
      destruct (j - length ids)%nat as [|k'] eqn:Ek'; [lia|by destruct k'].
Qed.

Lemma Qeq_bool_sym (p q : Q) : Qeq_bool p q = Qeq_bool q p.
Proof.
  destruct (Qeq_bool p q) eqn:E1, (Qeq_bool q p) eqn:E2; try done.
  - apply Qeq_bool_iff in E1. apply Qeq_sym, Qeq_bool_iff in E1. congruence.
  - apply Qeq_bool_iff in E2. apply Qeq_sym, Qeq_bool_iff in E2. congruence.
Qed.

Lemma sql_same_sym (a b : sval) : sql_same a b = sql_same b a.
Proof.
  destruct a as [| |x|[p|s|]|x], b as [| |y|[q|t|]|y]; simpl; try done.
  - apply Z.eqb_sym.
  - apply Qeq_bool_sym.
  - apply Qeq_bool_sym.
  - apply Qeq_bool_sym.
  - by destruct s, t.
  - apply String.eqb_sym.
Qed.

Lemma unique_usernames_snoc (l : list User.t) (row : User.t) :
  unique_usernames l ->
  existsb (fun r => sql_same (User.username r) (User.username row)) l = false ->
  unique_usernames (l ++ [row]).
Proof.
  intros Huniq Hfresh r1 r2 H1 H2 Heq.
  apply in_app_or in H1, H2.
  assert (Hnot : forall r, In r l -> sql_same (User.username r) (User.username row) = false).
  { intros r Hr. destruct (sql_same (User.username r) (User.username row)) eqn:E; [|done].
    exfalso. assert (existsb (fun r => sql_same (User.username r) (User.username row)) l = true)
      by (apply existsb_exists; exists r; split; [done|exact E]). congruence. }
  destruct H1 as [H1|[<-|[]]], H2 as [H2|[<-|[]]]; try done.
  - by apply Huniq.
  - rewrite Hnot in Heq; done.
  - rewrite sql_same_sym, Hnot in Heq; done.
Qed.

Lemma convert_text_class (p x : sval) : convert CText p = Some x -> text_or_null x = true.
Proof.
  unfold convert. destruct p as [| |z|[]|]; simpl; try case_match; intros [= <-]; done.
Qed.

Lemma store_text_class (dflt : option sval) (v : jval) (x : sval) :
  store CText dflt v = Some x -> text_or_null x = true.
Proof.
  unfold store. destruct (bind_param v) as [p|]; simpl; [|discriminate].
  destruct p; try apply convert_text_class.
  destruct dflt; [apply convert_text_class|]. by intros [= <-].
Qed.

Lemma convert_float_class (p x : sval) : convert CFloat p = Some x -> real_or_null x = true.
Proof.
  unfold convert, to_float. intros H.
  destruct p as [| |z|f|s]; simpl in H.
  - by injection H as <-.
  - by injection H as <-.
  - destruct (float_of_int z) as [[]|]; simpl in H; try discriminate; by injection H as <-.
  - destruct f; simpl in H; by injection H as <-.
  - destruct (float_of_str s) as [[]|]; simpl in H; try discriminate; by injection H as <-.
Qed.

Lemma store_float_class (dflt : option sval) (v : jval) (x : sval) :
  store CFloat dflt v = Some x -> real_or_null x = true.
Proof.
  unfold store. destruct (bind_param v) as [p|]; simpl; [|discriminate].
  destruct p; try apply convert_float_class.
  destruct dflt; [apply convert_float_class|]. by intros [= <-].
Qed.

Lemma text_class_nn (dflt : option sval) (v : jval) (x : sval) :
  store CText dflt v = Some x -> not_null x = true -> is_text x = true.
Proof. intros H%store_text_class. by destruct x. Qed.

Lemma float_class_nn (dflt : option sval) (v : jval) (x : sval) :
  store CFloat dflt v = Some x -> not_null x = true -> is_real x = true.
Proof. intros H%store_float_class. by destruct x. Qed.

Lemma naive_date_ok (dt : option datetime) :
  match option_map naive dt with Some x => is_naive x | None => true end = true.
Proof. by destruct dt. Qed.
End Steps.

(** Case on what request [r] commits in state [d]. *)
Ltac step_cases fromiso iso d r :=
  destruct (handle_cases fromiso iso d r)
    as [E|[(un & pw & ro & Hi & Ht1 & Ht2)|[(t & ds & dt & l & pr & o & Hi)
       |[(a & e & rt & Hi & Ht1 & Ht2)|(u & e & a & m & now & Hi & Ht1 & Ht2 & Ht3 & Ht4)]]]];
  [rewrite E
  |apply insert_user_shape in Hi
     as (u' & p' & r' & Eu & Ep & Er & Nu & Np & Fresh & ->)
  |apply insert_event_shape in Hi
     as (t' & ds' & l' & pr' & o' & Et & Eds & El & Epr & Eo & Nt & No & ->)
  |apply insert_registration_shape in Hi as (a' & e' & rt' & Ea & Ee & Ert & Na & Ne & ->)
  |apply insert_payment_shape in Hi
     as (u' & e' & a' & m' & Eu & Ee & Ea & Em & Nu & Ne & Na & ->)].

Section Invariants.
Context `{R : Runtime}.

(** Every stored value has its column's storage class. *)
Lemma reachable_typed (fromiso : string -> option datetime)
    (iso : datetime -> string) (d : db) :
  reachable fromiso iso d -> rows_typed d = true.
Proof.
  induction 1 as [|d r _ IH]; [reflexivity|].
  unfold rows_typed in *.
  apply andb_prop in IH as [IH H4]. apply andb_prop in IH as [IH H3].
  apply andb_prop in IH as [H1 H2].
  step_cases fromiso iso d r; simpl; rewrite ?forallb_app, ?H1, ?H2, ?H3, ?H4; simpl;
    try reflexivity;
    repeat (apply andb_true_intro; split);
    solve [ done | apply naive_date_ok
          | eapply text_class_nn; eassumption | eapply float_class_nn; eassumption
          | eapply store_text_class; eassumption | eapply store_float_class; eassumption ].
Qed.

(** X1: the rowid order of every table is the order of the ids: in every
    reachable state, the ids of each table strictly increase along it,
    so no two rows of a table share an id. *)
Theorem reachable_ids_increasing (fromiso : string -> option datetime)
    (iso : datetime -> string) (d : db) :
  reachable fromiso iso d ->
  ids_increasing (map User.id (users d)) /\
  ids_increasing (map Event.id (events d)) /\
  ids_increasing (map Registration.id (registrations d)) /\
  ids_increasing (map Payment.id (payments d)).
Proof.
  induction 1 as [|d r _ IH].
  - repeat split; intros i j x y _ Hi; by destruct i.
  - destruct IH as (H1 & H2 & H3 & H4).
    step_cases fromiso iso d r; simpl; rewrite ?map_app; simpl;
      repeat split; try apply ids_increasing_snoc; done.
Qed.

(** X2: the UNIQUE constraint is kept by the API: in every reachable
    state no two User rows have usernames that compare equal in SQL
    (where the number [123] and the text ["123"] are both stored as
    ["123"]). *)
Theorem reachable_unique_usernames (fromiso : string -> option datetime)
    (iso : datetime -> string) (d : db) :
  reachable fromiso iso d -> unique_usernames (users d).
Proof.
  induction 1 as [|d r _ IH].
  - intros r1 r2 [].
  - step_cases fromiso iso d r; simpl; try done.
    by apply unique_usernames_snoc.
Qed.

(** X3: in every reachable state each stored value has its column's
    storage class: usernames, passwords, titles and statuses are TEXT;
    the other String and Text columns hold TEXT or NULL; amounts are
    REAL and prices REAL or NULL; the NOT NULL Integer columns hold no
    NULL; and every stored date or timestamp is naive. *)
Theorem reachable_rows_typed (fromiso : string -> option datetime)
    (iso : datetime -> string) (d : db) :
  reachable fromiso iso d -> rows_typed d = true.
Proof. apply reachable_typed. Qed.

(** X4: the tables are append-only: a request never changes or removes
    a row of any table, and adds at most one row in total. *)
Theorem handle_append_only (fromiso : string -> option datetime)
    (iso : datetime -> string) (d : db) (r : request) :
  let d' := snd (handle fromiso iso d r) in
  exists lu le lr lp,
    users d' = users d ++ lu /\ events d' = events d ++ le /\
    registrations d' = registrations d ++ lr /\ payments d' = payments d ++ lp /\
    (length lu + length le + length lr + length lp <= 1)%nat.
Proof.
  intros d'. subst d'.
  step_cases fromiso iso d r.
  - exists [], [], [], []. rewrite !app_nil_r. repeat split. simpl. lia.
  - eexists [_], [], [], []. rewrite !app_nil_r. repeat split. simpl. lia.
  - eexists [], [_], [], []. rewrite !app_nil_r. repeat split. simpl. lia.
  - eexists [], [], [_], []. rewrite !app_nil_r. repeat split. simpl. lia.
  - eexists [], [], [], [_]. rewrite !app_nil_r. repeat split. simpl. lia.
Qed.
End Invariants.

Lemma reachable_ids_increasing_witness :
  ids_increasing (map User.id (users after_alice)) /\
  ids_increasing (map Event.id (events after_alice)) /\
  ids_increasing (map Registration.id (registrations after_alice)) /\
  ids_increasing (map Payment.id (payments after_alice)).
Proof.
  apply (reachable_ids_increasing iso_date (fun _ => "")).
  apply (reachable_step iso_date (fun _ => "") empty_db (ReqRegisterUser alice_secret)).
  apply reachable_init.
Defined.

Lemma reachable_unique_usernames_witness : unique_usernames (users after_alice).
Proof.
  apply (reachable_unique_usernames iso_date (fun _ => "")).
  apply (reachable_step iso_date (fun _ => "") empty_db (ReqRegisterUser alice_secret)).
  apply reachable_init.
Defined.

Lemma reachable_rows_typed_witness : rows_typed after_alice = true.
Proof.
  apply (reachable_rows_typed iso_date (fun _ => "")).
  apply (reachable_step iso_date (fun _ => "") empty_db (ReqRegisterUser alice_secret)).
  apply reachable_init.
Defined.

(* ------------------------------------------------------------------ *)
(** ** Events: further behaviour *)

Section EventsMore.
Context `{R : Runtime}.

Lemma in_int64_intro (z : Z) : (int64_min <= z <= int64_max)%Z -> in_int64 z = true.
Proof. intros H. unfold in_int64. apply andb_true_intro. split; apply Z.leb_le; lia. Qed.

(** The date parser answers only 400 or a server error. *)
Lemma parse_date_inr (fromiso : string -> option datetime) (v : jval) (r : response) :
  parse_date fromiso v = inr r -> r = RError 400 "Invalid date format" \/ r = RServerError.
Proof.
  unfold parse_date. destruct (truthy v); [|discriminate].
  destruct v as [[]| |]; try (intros [= <-]; by right).
  destruct (fromiso s); [discriminate|]. intros [= <-]. by left.
Qed.

(** X5: [get_or_404] on an id within 64 bits that no Event row has
    aborts with 404 and changes nothing. *)
Theorem get_event_absent (iso : datetime -> string) (d : db) (id : Z) :
  in_int64 id = true ->
  (forall e, In e (events d) -> Event.id e <> id) ->
  get_event iso d id = (RNotFound, d).
Proof.
  intros Hr Habs. unfold get_event. rewrite Hr.
  destruct (find (fun e => Z.eqb (Event.id e) id) (events d)) as [e|] eqn:F; [|done].
  apply find_some in F as [Hin Hid]. apply Z.eqb_eq in Hid.
  by destruct (Habs e Hin).
Qed.

(** X16: the route accepts any digit string, but an id outside 64 bits
    cannot be bound in the SELECT: [OverflowError], a server error, and
    nothing changes. *)
Theorem get_event_out_of_range (iso : datetime -> string) (d : db) (id : Z) :
  in_int64 id = false -> get_event iso d id = (RServerError, d).
Proof. intros Hr. unfold get_event. by rewrite Hr. Qed.

(** X6: after a successful creation (and while the next rowid fits in
    64 bits) the new row is the last Event row, its id is the next
    rowid, its title is the body's title as the String column stores
    it, and [GET /api/events/<that id>] returns that row's summary. *)
Theorem create_then_get_event (fromiso : string -> option datetime)
    (iso : datetime -> string) (d d' : db) (data : json) :
  (next_id (map Event.id (events d)) <= int64_max)%Z ->
  create_event fromiso d data = (RMessage "Event created successfully", d') ->
  exists e,
    events d' = events d ++ [e] /\
    Event.id e = next_id (map Event.id (events d)) /\
    store CText None (get data "title") = Some (Event.title e) /\
    get_event iso d' (Event.id e) = (REvent (summarize iso e), d').
Proof.
  intros Hbound. unfold create_event, commit. intros H.
  destruct (parse_date fromiso (get data "date")) as [dt|r] eqn:Hp.
  2:{ apply parse_date_inr in Hp as [-> | ->]; discriminate. }
  destruct (insert_event _ _ _ _ _ _ _) as [d''|] eqn:Hi; [|discriminate].
  injection H as <-.
  apply insert_event_shape in Hi as (t & ds & l & pr & o & Et & _ & _ & _ & _ & _ & _ & ->).
  eexists. split; [reflexivity|]. split; [reflexivity|]. split; [done|].
  unfold get_event. simpl.
  rewrite in_int64_intro
    by (pose proof (next_id_pos (map Event.id (events d))); unfold int64_min in *; lia).
  rewrite find_app_last; [done| |simpl; apply Z.eqb_refl].
  intros y Hy. apply Z.eqb_neq.
  assert (Event.id y < next_id (map Event.id (events d)))%Z; [|simpl; lia].
  apply next_id_gt. by apply in_map.
Qed.

(** X10: a non-empty date string that [fromisoformat] parses, with every
    other column storable ([title] and [organizer_id] not null) and no
    [price] key, stores one Event row: its date is the parsed datetime
    made naive (a UTC offset is dropped by the [DateTime] column), its
    price [0.0], and the other columns the values their conversions
    store. *)
Theorem create_event_parsed_date (fromiso : string -> option datetime)
    (d : db) (data : json) (s : string) (dt : datetime) (t ds l o : sval) :
  data !! "date" = Some (JStr s) -> s <> "" -> fromiso s = Some dt ->
  store CText None (get data "title") = Some t -> t <> SNull ->
  store CText None (get data "description") = Some ds ->
  store CText None (get data "location") = Some l ->
  store CInteger None (get data "organizer_id") = Some o -> o <> SNull ->
  data !! "price" = None ->
  create_event fromiso d data =
    (RMessage "Event created successfully",
     mk_db (users d)
       (events d ++ [Event.mk (next_id (map Event.id (events d))) t ds (Some (naive dt)) l
                       (SFloat (Fin 0)) o])
       (registrations d) (payments d)).
Proof.
  intros Hd Hs Hp Et Nt Eds El Eo No Hpr.
  unfold create_event, parse_date.
  replace (get data "date") with (JStr s) by (unfold get; by rewrite Hd).
  rewrite truthy_str, Hp by done.
  unfold commit, insert_event.
  replace (get_default data "price" (JFloat 0)) with (JFloat 0)
    by (unfold get_default; by rewrite Hpr).
  rewrite Et, Eds, El, Eo. simpl. by rewrite !not_null_neq.
Qed.

(** X11: a truthy date that is not a string makes [fromisoformat] raise
    a [TypeError] the handler does not catch: a server error, and
    nothing is stored. *)
Theorem create_event_nonstring_date (fromiso : string -> option datetime)
    (d : db) (data : json) (v : jval) :
  data !! "date" = Some v -> truthy v = true -> (forall s, v <> JStr s) ->
  create_event fromiso d data = (RServerError, d).
Proof.
  intros Hd Hv Hns. unfold create_event, parse_date.
  replace (get data "date") with v by (unfold get; by rewrite Hd).
  rewrite Hv. destruct v as [[]| |]; try done.
  by destruct (Hns s).
Qed.

(** X21: a [price] string that [float()] refuses raises [ValueError]
    at the commit, which the handler does not catch (its [try] covers
    only the date): when the date is absent, empty or parses, the answer
    is a server error and nothing is stored. *)
Theorem create_event_bad_price (fromiso : string -> option datetime)
    (d : db) (data : json) (s : string) (dt : option datetime) :
  data !! "price" = Some (JStr s) -> float_of_str s = None ->
  parse_date fromiso (get data "date") = inl dt ->
  create_event fromiso d data = (RServerError, d).
Proof.
  intros Hpr Hf Hp. unfold create_event. rewrite Hp.
  unfold commit, insert_event.
  replace (get_default data "price" (JFloat 0)) with (JStr s)
    by (unfold get_default; by rewrite Hpr).
  assert (E : store CFloat (Some (SFloat (Fin 0))) (JStr s) = None).
  { unfold store, convert, to_float. simpl. by rewrite Hf. }
  rewrite E. split_columns; reflexivity.
Qed.
End EventsMore.

Lemma get_event_absent_witness :
  get_event (fun _ => "") after_alice 7 = (RNotFound, after_alice).
Proof.
  apply get_event_absent.
  - reflexivity.
  - intros e He. vm_compute in He. destruct He.
Defined.

Lemma get_event_out_of_range_witness :
  get_event (fun _ => "") after_alice (2 ^ 63) = (RServerError, after_alice).
Proof. apply get_event_out_of_range. reflexivity. Defined.

Lemma create_then_get_event_witness :
  exists e,
    events (snd (create_event iso_date after_alice
                   (body [("title", JStr "Conf"); ("organizer_id", JInt 1)])))
      = events after_alice ++ [e] /\
    Event.id e = next_id (map Event.id (events after_alice)) /\
    store CText None (get (body [("title", JStr "Conf"); ("organizer_id", JInt 1)]) "title")
      = Some (Event.title e) /\
    get_event (fun _ => "")
      (snd (create_event iso_date after_alice
              (body [("title", JStr "Conf"); ("organizer_id", JInt 1)]))) (Event.id e)
      = (REvent (summarize (fun _ => "") e),
         snd (create_event iso_date after_alice
                (body [("title", JStr "Conf"); ("organizer_id", JInt 1)]))).
Proof.
  apply (create_then_get_event iso_date (fun _ => "") after_alice).
  - vm_compute. discriminate.
  - reflexivity.
Defined.

Lemma create_event_parsed_date_witness :
  create_event iso_date after_alice
    (body [("title", JStr "Conf"); ("organizer_id", JInt 1); ("date", JStr "2024-05-01")])
    = (RMessage "Event created successfully",
       mk_db (users after_alice)
         [Event.mk 1 (SStr "Conf") SNull (Some (mk_datetime 2024 5 1 0 0 0 0 None)) SNull
            (SFloat (Fin 0)) (SInt 1)]
         [] []).
Proof.
  apply (create_event_parsed_date iso_date after_alice _ "2024-05-01"
           (mk_datetime 2024 5 1 0 0 0 0 None));
    try reflexivity; discriminate.
Defined.

Lemma create_event_nonstring_date_witness :
  create_event iso_date after_alice
    (body [("title", JStr "Conf"); ("organizer_id", JInt 1); ("date", JInt 20240501)])
    = (RServerError, after_alice).
Proof.
  apply (create_event_nonstring_date iso_date after_alice _ (JInt 20240501)).
  - reflexivity.
  - reflexivity.
  - discriminate.
Defined.

Lemma create_event_bad_price_witness :
  create_event iso_date after_alice
    (body [("title", JStr "Conf"); ("organizer_id", JInt 1); ("date", JStr "");
           ("price", JStr "abc")])
    = (RServerError, after_alice).
Proof.
  apply (create_event_bad_price iso_date after_alice _ "abc" None); reflexivity.
Defined.

(* ------------------------------------------------------------------ *)
(** ** Registrations and payments: further behaviour *)

Section RegistrationsMore.
Context `{R : Runtime}.

(** A registration whose two ids pass the guard and can be stored,
    non-null, in their Integer columns commits one row. *)
Lemma register_to_event_ok (d : db) (data : json) (a e rt : sval) :
  truthy (get data "attendee_id") = true -> truthy (get data "event_id") = true ->
  store CInteger None (get data "attendee_id") = Some a -> a <> SNull ->
  store CInteger None (get data "event_id") = Some e -> e <> SNull ->
  store CText None (get_default data "registration_type" (JStr "general")) = Some rt ->
  register_to_event d data =
    (RMessage "Registration successful",
     mk_db (users d) (events d)
       (registrations d ++
          [Registration.mk (next_id (map Registration.id (registrations d))) a e rt])
       (payments d)).
Proof.
  intros Ta Te Ea Na Ee Ne Ert. unfold register_to_event. rewrite Ta, Te. cbn [negb orb].
  unfold commit, insert_registration. rewrite Ea, Ee, Ert. simpl.
  by rewrite !not_null_neq.
Qed.


(** X8: in such a registration, a body without a [registration_type]
    key stores ['general'], while an explicit [null] is stored as NULL
    (the column has no default). *)
Theorem register_to_event_default_general (d : db) (data : json) (a e : sval) :
  truthy (get data "attendee_id") = true -> truthy (get data "event_id") = true ->
  store CInteger None (get data "attendee_id") = Some a -> a <> SNull ->
  store CInteger None (get data "event_id") = Some e -> e <> SNull ->
  data !! "registration_type" = None \/ data !! "registration_type" = Some JNull ->
  exists row,
    register_to_event d data =
      (RMessage "Registration successful",
       mk_db (users d) (events d) (registrations d ++ [row]) (payments d)) /\
    Registration.registration_type row =
      match data !! "registration_type" with None => SStr "general" | Some _ => SNull end /\
    Registration.attendee_id row = a /\ Registration.event_id row = e.
Proof.
  intros Ta Te Ea Na Ee Ne Hrt.
  assert (Ert : store CText None (get_default data "registration_type" (JStr "general"))
                = Some (match data !! "registration_type" with
                        | None => SStr "general" | Some _ => SNull end)).
  { unfold get_default. by destruct Hrt as [-> | ->]. }
  eexists. split; [apply (register_to_event_ok d data a e _ Ta Te Ea Na Ee Ne Ert)|].
  repeat split.
Qed.



(** X20: with the other three fields truthy, an [amount] string that
    [float()] refuses, or that it reads as NaN (bound as NULL), or a
    NaN amount, makes the commit fail ([ValueError], or NULL in the NOT
    NULL [amount] column): a server error and no Payment row. *)
Theorem process_payment_bad_amount (d : db) (now : datetime) (data : json) :
  truthy (get data "user_id") = true -> truthy (get data "event_id") = true ->
  truthy (get data "payment_method") = true ->
  (exists s, get data "amount" = JStr s /\ s <> "" /\
             (float_of_str s = None \/ float_of_str s = Some NaN)) \/
  get data "amount" = JScalar (SFloat NaN) ->
  process_payment d now data = (RServerError, d).
Proof.
  intros Tu Te Tm Ham.
  assert (Ta : truthy (get data "amount") = true).
  { destruct Ham as [(s & -> & Hs & _) | ->]; [by apply truthy_str | reflexivity]. }
  assert (Ea : store CFloat None (get data "amount") = None \/
               store CFloat None (get data "amount") = Some SNull).
  { destruct Ham as [(s & -> & _ & [Hf|Hf]) | ->]; unfold store, convert, to_float; simpl.
    - rewrite Hf. by left.
    - rewrite Hf. by right.
    - by right. }
  unfold process_payment. rewrite Tu, Te, Ta, Tm. cbn [andb negb].
  unfold insert_payment.
  destruct Ea as [Ea|Ea]; rewrite Ea; split_columns; rewrite ?andb_false_r; reflexivity.
Qed.
End RegistrationsMore.


Lemma register_to_event_default_general_witness :
  exists row,
    register_to_event after_alice
      (body [("attendee_id", JInt 1); ("event_id", JInt 1); ("registration_type", JNull)]) =
      (RMessage "Registration successful",
       mk_db (users after_alice) (events after_alice)
         (registrations after_alice ++ [row]) (payments after_alice)) /\
    Registration.registration_type row =
      match body [("attendee_id", JInt 1); ("event_id", JInt 1); ("registration_type", JNull)]
              !! "registration_type" with
      | None => SStr "general" | Some _ => SNull end /\
    Registration.attendee_id row = SInt 1 /\ Registration.event_id row = SInt 1.
Proof.
  apply (register_to_event_default_general after_alice _ (SInt 1) (SInt 1));
    try reflexivity; try discriminate.
  right. reflexivity.
Defined.



Lemma process_payment_bad_amount_witness :
  process_payment after_alice sample_now
    (body [("user_id", JInt 1); ("event_id", JInt 1); ("amount", JStr "abc");
           ("payment_method", JStr "card")])
    = (RServerError, after_alice).
Proof.
  apply process_payment_bad_amount; try reflexivity.
  left. exists "abc". split; [reflexivity|]. split; [discriminate|]. left. reflexivity.
Defined.

(* ------------------------------------------------------------------ *)
(** ** Registration and login: further behaviour *)

Section AccountsMore.
Context `{R : Runtime}.

(** X12: a missing or falsy username or password (absent, null, [""],
    [0], [false], [[]], ...) is refused with 400 and nothing is
    stored. *)
Theorem register_user_missing (d : db) (data : json) :
  truthy (get data "username") = false \/ truthy (get data "password") = false ->
  register_user d data = (RError 400 "Missing username or password", d).
Proof.
  intros [H|H]; unfold register_user; rewrite H; simpl; [done|].
  by rewrite orb_true_r.
Qed.

(** Registration of fresh string credentials, with the role as stored. *)
Lemma register_user_fresh (d : db) (data : json) (u p : string) :
  data !! "username" = Some (JStr u) -> data !! "password" = Some (JStr p) ->
  u <> "" -> p <> "" ->
  (forall row, In row (users d) -> User.username row <> SStr u) ->
  register_user d data =
    match store CText (Some (SStr "user")) (get_default data "role" (JStr "user")) with
    | Some r =>
        (RMessage "User registered successfully",
         mk_db (users d ++ [User.mk (next_id (map User.id (users d))) (SStr u) (SStr p) r])
           (events d) (registrations d) (payments d))
    | None => (RServerError, d)
    end.
Proof.
  intros Hu Hp Hu0 Hp0 Hfresh.
  pose proof (existsb_username_fresh (users d) u Hfresh) as Hnone.
  unfold register_user, get. rewrite Hu, Hp. simpl default.
  rewrite !truthy_str by done. cbn [negb orb]. rewrite text_param_str.
  cbn [text_match]. rewrite Hnone.
  unfold commit, insert_user. rewrite !store_str. simpl.
  destruct (store CText _ _); simpl; [|done]. by rewrite Hnone.
Qed.

(** X13: without a [role] (absent or null) a new user is stored with
    role ['user']. *)
Theorem register_user_default_role (d : db) (data : json) (u p : string) :
  data !! "username" = Some (JStr u) -> data !! "password" = Some (JStr p) ->
  u <> "" -> p <> "" ->
  (forall row, In row (users d) -> User.username row <> SStr u) ->
  data !! "role" = None \/ data !! "role" = Some JNull ->
  register_user d data =
    (RMessage "User registered successfully",
     mk_db (users d ++ [User.mk (next_id (map User.id (users d))) (SStr u) (SStr p) (SStr "user")])
       (events d) (registrations d) (payments d)).
Proof.
  intros Hu Hp Hu0 Hp0 Hfresh Hrole.
  rewrite (register_user_fresh d data u p) by done.
  unfold get_default. by destruct Hrole as [-> | ->].
Qed.

(** X17: the role column has TEXT affinity: an integer role within 64
    bits is stored as its decimal text; one outside 64 bits cannot be
    bound ([OverflowError]): a server error, and nothing is stored. *)
Theorem register_user_numeric_role (d : db) (data : json) (u p : string) (z : Z) :
  data !! "username" = Some (JStr u) -> data !! "password" = Some (JStr p) ->
  u <> "" -> p <> "" ->
  (forall row, In row (users d) -> User.username row <> SStr u) ->
  data !! "role" = Some (JInt z) ->
  register_user d data =
    if in_int64 z then
      (RMessage "User registered successfully",
       mk_db (users d ++ [User.mk (next_id (map User.id (users d))) (SStr u) (SStr p)
                            (SStr (ztext z))])
         (events d) (registrations d) (payments d))
    else (RServerError, d).
Proof.
  intros Hu Hp Hu0 Hp0 Hfresh Hrole.
  rewrite (register_user_fresh d data u p) by done.
  unfold get_default. rewrite Hrole. unfold store, convert. simpl.
  by destruct (in_int64 z).
Qed.

(** X14: login finds the stored row: with unique usernames, a login
    with a row's username and password (as strings) returns that row's
    id, username and role. *)
Theorem login_stored_credentials (d : db) (login : json) (row : User.t) (u p : string) :
  unique_usernames (users d) ->
  In row (users d) -> User.username row = SStr u -> User.password row = SStr p ->
  login !! "username" = Some (JStr u) -> login !! "password" = Some (JStr p) ->
  login_user d login = (RLogin "Login successful" (User.id row) (SStr u) (User.role row), d).
Proof.
  intros Huniq Hin Hu Hp Hlu Hlp.
  unfold login_user, get. rewrite Hlu, Hlp. simpl default. rewrite !text_param_str.
  rewrite (find_login_row (users d) row u); try done.
  - by rewrite Hu.
  - rewrite Hp. simpl. apply String.eqb_refl.
Qed.

(** X18: the password filter gives its parameter TEXT affinity: an
    integer password [z] within 64 bits matches the stored text of [z],
    and the login succeeds. *)
Theorem login_numeric_password (d : db) (login : json) (row : User.t) (u : string) (z : Z) :
  unique_usernames (users d) ->
  In row (users d) -> User.username row = SStr u -> User.password row = SStr (ztext z) ->
  in_int64 z = true ->
  login !! "username" = Some (JStr u) -> login !! "password" = Some (JInt z) ->
  login_user d login = (RLogin "Login successful" (User.id row) (SStr u) (User.role row), d).
Proof.
  intros Huniq Hin Hu Hp Hz Hlu Hlp.
  assert (Ep : text_param (JInt z) = Some (Some (SStr (ztext z)))).
  { unfold text_param. simpl. by rewrite Hz. }
  unfold login_user, get. rewrite Hlu, Hlp. simpl default. rewrite text_param_str, Ep.
  rewrite (find_login_row (users d) row u); try done.
  - by rewrite Hu.
  - rewrite Hp. simpl. apply String.eqb_refl.
Qed.

(** X15: in a reachable state, a login whose username or password is
    missing or null (and whose other field can be bound as a query
    parameter) finds no row, since every stored username and password
    is text: 400 "Invalid credentials". *)
Theorem login_missing_field (fromiso : string -> option datetime)
    (iso : datetime -> string) (d : db) (login : json) :
  reachable fromiso iso d ->
  get login "username" = JNull \/ get login "password" = JNull ->
  text_param (get login "username") <> None ->
  text_param (get login "password") <> None ->
  login_user d login = (RError 400 "Invalid credentials", d).
Proof.
  intros Hreach Hmiss Bu Bp.
  pose proof (reachable_typed fromiso iso d Hreach) as Ht.
  unfold rows_typed in Ht. apply andb_prop in Ht as [Ht _].
  apply andb_prop in Ht as [Ht _]. apply andb_prop in Ht as [Ht _].
  unfold login_user.
  destruct (text_param (get login "username")) as [cu|] eqn:Eu; [|done].
  destruct (text_param (get login "password")) as [cp|] eqn:Ep; [|done].
  match goal with |- context [find ?f (users d)] =>
    destruct (find f (users d)) as [r|] eqn:F; [|done] end.
  exfalso. apply find_some in F as [Hr Hf].
  apply andb_prop in Hf as [Hfu Hfp].
  rewrite forallb_forall in Ht. specialize (Ht r Hr).
  unfold user_typed in Ht. apply andb_prop in Ht as [Ht _]. apply andb_prop in Ht as [Tu Tp].
  destruct Hmiss as [Hm|Hm]; rewrite Hm in *; simpl in *.
  - injection Eu as <-. simpl in Hfu. by destruct (User.username r).
  - injection Ep as <-. simpl in Hfp. by destruct (User.password r).
Qed.
End AccountsMore.

Lemma register_user_missing_witness :
  register_user empty_db (body [("username", JStr "bob")])
    = (RError 400 "Missing username or password", empty_db).
Proof. apply register_user_missing. right. reflexivity. Defined.

Lemma register_user_default_role_witness :
  register_user empty_db (body [("username", JStr "bob"); ("password", JStr "pw"); ("role", JNull)])
    = (RMessage "User registered successfully",
       mk_db [User.mk (next_id []) (SStr "bob") (SStr "pw") (SStr "user")] [] [] []).
Proof.
  apply (register_user_default_role empty_db _ "bob" "pw");
    try reflexivity; try discriminate.
  - intros row [].
  - right. reflexivity.
Defined.

Lemma register_user_numeric_role_witness :
  register_user empty_db (body [("username", JStr "bob"); ("password", JStr "pw"); ("role", JInt 5)])
    = (RMessage "User registered successfully",
       mk_db [User.mk (next_id []) (SStr "bob") (SStr "pw") (SStr "5")] [] [] []).
Proof.
  rewrite (register_user_numeric_role empty_db _ "bob" "pw" 5);
    try reflexivity; try discriminate.
  intros row [].
Defined.

Lemma login_stored_credentials_witness :
  login_user after_alice alice_secret
    = (RLogin "Login successful" 1 (SStr "alice") (SStr "user"), after_alice).
Proof.
  apply (login_stored_credentials after_alice alice_secret
           (User.mk 1 (SStr "alice") (SStr "secret") (SStr "user")) "alice" "secret").
  - intros r1 r2 [<-|[]] [<-|[]] _. reflexivity.
  - left. reflexivity.
  - reflexivity.
  - reflexivity.
  - reflexivity.
  - reflexivity.
Defined.

Lemma login_numeric_password_witness :
  login_user after_bob (body [("username", JStr "bob"); ("password", JInt 123)])
    = (RLogin "Login successful" 1 (SStr "bob") (SStr "user"), after_bob).
Proof.
  apply (login_numeric_password after_bob _
           (User.mk 1 (SStr "bob") (SStr "123") (SStr "user")) "bob" 123).
  - intros r1 r2 [<-|[]] [<-|[]] _. reflexivity.
  - left. reflexivity.
  - reflexivity.
  - reflexivity.
  - reflexivity.
  - reflexivity.
  - reflexivity.
Defined.

Lemma login_missing_field_witness :
  login_user after_alice (body [("username", JStr "alice")])
    = (RError 400 "Invalid credentials", after_alice).
Proof.
  apply (login_missing_field iso_date (fun _ => "")).
  - apply (reachable_step iso_date (fun _ => "") empty_db (ReqRegisterUser alice_secret)).
    apply reachable_init.
  - right. reflexivity.
  - discriminate.
  - discriminate.
Defined.
